(** * Path matching of navigation items (Nav/components/Item/Item.tsx)

    A shallow embedding of the pure part of [Item.tsx]: the helpers
    [normalizePathname], [safeEqual], [safeStartsWith], the classifier
    [matchStateForItem], the predicate [isNavItemActive] and the
    [longestMatch] computation of [Item.render].

    Strings are [string] (a sequence of characters, compared position by
    position as JavaScript compares code units); an optional field
    [f?: T] is [option T], [None] standing for [undefined]. *)

From Stdlib Require Import Bool List ZArith Lia Ascii String.
From Stdlib Require Import Sorted Permutation.
Import ListNotations.

Local Open Scope string_scope.
Local Open Scope list_scope.

(** ** JavaScript string primitives used by the source *)

Module JsString.

(** [s.split(sep)] for a one-character separator.  The result of [split]
    is never empty, so it is kept as its first element and the rest;
    [split sep s] is [(arr[0], [arr[1]; ...])]. *)
Fixpoint split (sep : ascii) (s : string) : string * list string :=
  match s with
  | EmptyString => (EmptyString, [])
  | String c s' =>
      let '(h, t) := split sep s' in
      if Ascii.eqb c sep then (EmptyString, h :: t) else (String c h, t)
  end.

(** [s.startsWith(t)] *)
Fixpoint startsWith (s t : string) : bool :=
  match t with
  | EmptyString => true
  | String b t' =>
      match s with
      | EmptyString => false
      | String a s' => Ascii.eqb a b && startsWith s' t'
      end
  end.

(** [s.endsWith(t)]: [t] is [s] itself or a suffix of the tail of [s]. *)
Fixpoint endsWith (s t : string) : bool :=
  if String.eqb s t then true
  else match s with
       | EmptyString => false
       | String _ s' => endsWith s' t
       end.

(** [c] occurs in [s] *)
Fixpoint occurs (c : ascii) (s : string) : bool :=
  match s with
  | EmptyString => false
  | String a s' => Ascii.eqb a c || occurs c s'
  end.

End JsString.

Import JsString.

(** ** Data model *)

(** [interface ItemURLDetails] *)
Record ItemURLDetails := {
  url : option string;
  matches : option bool;
  exactMatch : option bool;
  matchPaths : option (list string);
  excludePaths : option (list string)
}.

(** [interface SubNavItem extends ItemURLDetails]: [url] is required. *)
Record SubNavItem := {
  sub_url : string;
  sub_label : string;
  sub_disabled : option bool;
  sub_matches : option bool;
  sub_exactMatch : option bool;
  sub_matchPaths : option (list string);
  sub_excludePaths : option (list string)
}.

(** A [SubNavItem] passed where an [ItemURLDetails] is expected. *)
Definition subDetails (item : SubNavItem) : ItemURLDetails :=
  {| url := Some (sub_url item);
     matches := sub_matches item;
     exactMatch := sub_exactMatch item;
     matchPaths := sub_matchPaths item;
     excludePaths := sub_excludePaths item |}.

(** [interface Props extends ItemURLDetails], the fields the matching code
    reads (icons, badges and handlers play no part in it). *)
Record Props := {
  details : ItemURLDetails;
  label : string;
  disabled : option bool;
  selected : option bool;
  subNavItems : option (list SubNavItem)
}.

(** [enum MatchState] *)
Inductive MatchState :=
| MatchForced
| MatchUrl
| MatchPaths
| Excluded
| NoMatch.

Definition MatchState_eqb (a b : MatchState) : bool :=
  match a, b with
  | MatchForced, MatchForced
  | MatchUrl, MatchUrl
  | MatchPaths, MatchPaths
  | Excluded, Excluded
  | NoMatch, NoMatch => true
  | _, _ => false
  end.

(** ** The helpers *)

(** [pathname.split('?')[0].split('#')[0]] *)
Definition barePathname (pathname : string) : string :=
  fst (split "#" (fst (split "?" pathname))).

Definition normalizePathname (pathname : string) : string :=
  let bare := barePathname pathname in
  if endsWith bare "/" then bare else bare ++ "/".

Definition safeEqual (location path : string) : bool :=
  String.eqb (normalizePathname location) (normalizePathname path).

Definition safeStartsWith (location path : string) : bool :=
  startsWith (normalizePathname location) (normalizePathname path).

(** [xs && xs.some(f)], read as a condition *)
Definition some_of {A} (xs : option (list A)) (f : A -> bool) : bool :=
  match xs with
  | None => false
  | Some l => existsb f l
  end.

(** ** [matchStateForItem] *)

Definition matchStateForItem (item : ItemURLDetails) (location : string)
  : MatchState :=
  match url item with
  | None => NoMatch
  | Some u =>
      match matches item with
      | Some true => MatchForced
      | m =>
          if match m with Some false => true | _ => false end
             || some_of (excludePaths item)
                  (fun path => safeStartsWith location path)
          then Excluded
          else if some_of (matchPaths item)
                    (fun path => safeStartsWith location path)
          then MatchPaths
          else
            let matchesUrl :=
              match exactMatch item with
              | Some true => safeEqual location u
              | _ => safeStartsWith location u
              end in
            if matchesUrl then MatchUrl else NoMatch
      end
  end.

(** The test repeated in [render] and [isNavItemActive]:
    [state === MatchForced || state === MatchUrl || state === MatchPaths] *)
Definition isMatching (state : MatchState) : bool :=
  MatchState_eqb state MatchForced
  || MatchState_eqb state MatchUrl
  || MatchState_eqb state MatchPaths.

(** ** [isNavItemActive] *)

(** The filter callback shared by [render] and [isNavItemActive]. *)
Definition subItemMatches (location : string) (item : SubNavItem) : bool :=
  isMatching (matchStateForItem (subDetails item) location).

(** The function returns [selected || childIsActive]; [childIsActive] is
    [undefined] when [subNavItems] is, so the result is a boolean or
    [undefined] ([None]). *)
Definition isNavItemActive (navItem : Props) (currentPath : string)
  : option bool :=
  let matchState := matchStateForItem (details navItem) currentPath in
  let matchingSubNavItems :=
    option_map (filter (subItemMatches currentPath)) (subNavItems navItem) in
  let childIsActive :=
    option_map (fun l => Nat.ltb 0 (List.length l)) matchingSubNavItems in
  let selected := isMatching matchState in
  if selected then Some true else childIsActive.

(** ** [longestMatch] in [render] *)

(** [arr.sort(compareFn)]: the sort of ECMAScript is stable; an element is
    moved behind another one only when [compareFn] is positive on them. *)
Fixpoint sort_insert {A} (compareFn : A -> A -> Z) (x : A) (l : list A)
  : list A :=
  match l with
  | [] => [x]
  | y :: l' =>
      if (0 <? compareFn x y)%Z then y :: sort_insert compareFn x l'
      else x :: y :: l'
  end.

Fixpoint sort {A} (compareFn : A -> A -> Z) (l : list A) : list A :=
  match l with
  | [] => []
  | x :: l' => sort_insert compareFn x (sort compareFn l')
  end.

(** [({url: firstUrl}, {url: secondUrl}) => secondUrl.length - firstUrl.length] *)
Definition byUrlLength (first second : SubNavItem) : Z :=
  (Z.of_nat (String.length (sub_url second))
   - Z.of_nat (String.length (sub_url first)))%Z.

(** [matchingSubNavItems.sort(...)[0]]; [None] is [undefined]. *)
Definition longestMatch (subNavItems : list SubNavItem) (location : string)
  : option SubNavItem :=
  let matchingSubNavItems := filter (subItemMatches location) subNavItems in
  hd_error (sort byUrlLength matchingSubNavItems).

(** The same value as [render] reaches it: [subNavItems] defaults to
    [[]]; an item without [url] is returned as a button before anything is
    matched ([if (url == null) return ...]); and the sort runs only under
    [subNavItems.length > 0 && showExpanded].  Where [render] does not
    reach the sort, no sub-item is rendered and none is flagged
    ([None]). *)
Definition render_longestMatch (props : Props) (expanded : bool)
    (location : string) : option SubNavItem :=
  let subNavItems :=
    match subNavItems props with Some l => l | None => [] end in
  match url (details props) with
  | None => None
  | Some _ =>
      let matchState := matchStateForItem (details props) location in
      let matchingSubNavItems :=
        filter (subItemMatches location) subNavItems in
      let childIsActive := Nat.ltb 0 (List.length matchingSubNavItems) in
      let selected :=
        match selected props with
        | None => isMatching matchState
        | Some selectedOverride => selectedOverride
        end in
      let showExpanded := selected || expanded || childIsActive in
      if Nat.ltb 0 (List.length subNavItems) && showExpanded
      then hd_error (sort byUrlLength matchingSubNavItems)
      else None
  end.

(** ** The classifier as the specification words it *)

(** "[location] (path-normalized) starts with any entry of [paths] (each
    also path-normalized)"; a missing sequence is an empty one. *)
Definition prefix_hit (location : string) (paths : option (list string))
  : bool :=
  existsb (startsWith (normalizePathname location))
    (map normalizePathname (match paths with Some l => l | None => [] end)).

Definition is_true (b : option bool) : bool :=
  match b with Some true => true | _ => false end.

Definition is_false (b : option bool) : bool :=
  match b with Some false => true | _ => false end.

(** The five steps of the specification, in its order. *)
Definition classify (rule : ItemURLDetails) (location : string)
  : MatchState :=
  match url rule with
  | None => NoMatch                                              (* 1 *)
  | Some u =>
      if is_true (matches rule) then MatchForced                 (* 2 *)
      else if is_false (matches rule)
              || prefix_hit location (excludePaths rule)
      then Excluded                                              (* 3 *)
      else if prefix_hit location (matchPaths rule)
      then MatchPaths                                            (* 4 *)
      else if (if is_true (exactMatch rule)
               then String.eqb (normalizePathname location)
                               (normalizePathname u)
               else startsWith (normalizePathname location)
                               (normalizePathname u))
      then MatchUrl else NoMatch                                 (* 5 *)
  end.

(** "Only [ForcedMatch], [UrlMatch], [PathsMatch] count as active." *)
Definition Active (state : MatchState) : Prop :=
  state = MatchForced \/ state = MatchUrl \/ state = MatchPaths.

(** A sub-item is active at [location]. *)
Definition ActiveAt (location : string) (item : SubNavItem) : Prop :=
  Active (matchStateForItem (subDetails item) location).

(** [item.url.length] *)
Definition urlLength (item : SubNavItem) : nat :=
  String.length (sub_url item).

(** The order the comparator of [render] sorts into. *)
Definition longer_first (a b : SubNavItem) : Prop :=
  urlLength b <= urlLength a.

(** [subNavItems = []] in the destructuring of [render]; a missing
    sequence counts as an empty one. *)
Definition subItemsOf (props : Props) : list SubNavItem :=
  match subNavItems props with Some l => l | None => [] end.

(** ** Sample rules *)

Definition rule (u : option string) (m e : option bool)
    (mp ep : option (list string)) : ItemURLDetails :=
  {| url := u; matches := m; exactMatch := e;
     matchPaths := mp; excludePaths := ep |}.

Definition subItem (u : string) : SubNavItem :=
  {| sub_url := u; sub_label := u; sub_disabled := None;
     sub_matches := None; sub_exactMatch := None;
     sub_matchPaths := None; sub_excludePaths := None |}.

(** ** [Item]: the component *)

(** Handlers ([onClick], [onNavDismiss]) are functions compared by
    identity ([onClick !== onNavDismiss]); a handler is named by a
    number. *)
Definition Callback := nat.

(** The objects of [subNavItems] are compared by identity too
    ([item === longestMatch]): a reference is the address of the object
    together with the object found there, and [===] compares addresses. *)
Record SubNavItemRef := {
  addr : nat;
  obj : SubNavItem
}.

(** [this.props], with the sub-items held by reference and the handler
    the component is given. *)
Record ItemProps := {
  p_details : ItemURLDetails;
  p_label : string;
  p_disabled : option bool;
  p_selected : option bool;
  p_subNavItems : option (list SubNavItemRef);
  p_onClick : option Callback
}.

(** The same props as [isNavItemActive] reads them. *)
Definition propsOf (props : ItemProps) : Props :=
  {| details := p_details props;
     label := p_label props;
     disabled := p_disabled props;
     selected := p_selected props;
     subNavItems := option_map (map obj) (p_subNavItems props) |}.

(** [interface State] *)
Record State := {
  expanded : bool
}.

(** [state: State = {expanded: false}] *)
Definition initialState : State := {| expanded := false |}.

(** [this.context], the two fields the component reads. *)
Record Context := {
  location : string;
  onNavDismiss : option Callback
}.

(** [item === longestMatch]; [longestMatch] may be [undefined]. *)
Definition same_object (item : SubNavItemRef)
    (longestMatch : option SubNavItemRef) : bool :=
  match longestMatch with
  | Some best => Nat.eqb (addr item) (addr best)
  | None => false
  end.

(** The comparator of [render] on references. *)
Definition byUrlLengthRef (first second : SubNavItemRef) : Z :=
  byUrlLength (obj first) (obj second).

(** The props of a child:
    [<Item {...rest} key={label} label={label}
            matches={item === longestMatch} onClick={onNavDismiss} />]. *)
Definition childProps (item : SubNavItemRef) (flag : bool)
    (dismiss : option Callback) : ItemProps :=
  {| p_details :=
       {| url := Some (sub_url (obj item));
          matches := Some flag;
          exactMatch := sub_exactMatch (obj item);
          matchPaths := sub_matchPaths (obj item);
          excludePaths := sub_excludePaths (obj item) |};
     p_label := sub_label (obj item);
     p_disabled := sub_disabled (obj item);
     p_selected := None;
     p_subNavItems := None;
     p_onClick := dismiss |}.

(** What [render] returns, without icon, badge, label and secondary
    action: the [<button>] of an item without [url], or the link with the
    classes of [itemClassName] and the children of [Nav.Secondary]
    ([None] when [secondaryNavMarkup] stays [null]).  [onClick] is the
    handler [getClickHandler] was given. *)
Inductive Markup :=
| ButtonMarkup (disabledClass : bool) (onClick : option Callback)
| LinkMarkup (href : string)
    (disabledClass selectedClass subNavActiveClass : bool)
    (onClick : option Callback)
    (secondaryNav : option (list ItemProps)).

(** [x && styles.c] in [classNames]: the class is there when [x] is
    truthy. *)
Definition truthy (b : option bool) : bool :=
  match b with Some true => true | _ => false end.

Definition render (props : ItemProps) (state : State) (context : Context)
  : Markup :=
  let subNavItems :=
    match p_subNavItems props with Some l => l | None => [] end in
  let location := location context in
  match url (p_details props) with
  | None => ButtonMarkup (truthy (p_disabled props)) (p_onClick props)
  | Some u =>
      let matchState := matchStateForItem (p_details props) location in
      let matchingSubNavItems :=
        filter (fun item => subItemMatches location (obj item))
          subNavItems in
      let childIsActive := Nat.ltb 0 (List.length matchingSubNavItems) in
      let selected :=
        match p_selected props with
        | None => isMatching matchState
        | Some selectedOverride => selectedOverride
        end in
      let showExpanded := selected || expanded state || childIsActive in
      let secondaryNavMarkup :=
        if Nat.ltb 0 (List.length subNavItems) && showExpanded then
          let longestMatch :=
            hd_error (sort byUrlLengthRef matchingSubNavItems) in
          Some (map (fun item =>
                       childProps item (same_object item longestMatch)
                         (onNavDismiss context))
                  subNavItems)
        else None in
      LinkMarkup u
        (truthy (p_disabled props))
        (selected && Nat.eqb (List.length subNavItems) 0)
        showExpanded
        (p_onClick props)
        secondaryNavMarkup
  end.

(** [handleResize]; [collapsed] is [navBarCollapsed().matches]. *)
Definition handleResize (collapsed : bool) (state : State) : State :=
  if negb collapsed then {| expanded := false |} else state.

(** What a click does besides changing the state, in the order it does
    it. *)
Inductive Effect :=
| PreventDefault
| Call (f : Callback).

(** The handler [getClickHandler(onClick)] returns, run on an event whose
    [currentTarget] has the attribute [href] ([None] for [null]).
    [collapsed] is [navBarCollapsed().matches], the same at both places
    the handler reads it.  The result is the effects in order and the
    state after [setState]. *)
Definition clickHandler (onClick : option Callback) (props : ItemProps)
    (context : Context) (collapsed : bool) (href : option string)
    (state : State) : list Effect * State :=
  let e1 :=
    match href with
    | Some h => if String.eqb h (location context) then [PreventDefault]
                else []
    | None => []
    end in
  let hasSubNavItems :=
    match p_subNavItems props with
    | Some l => Nat.ltb 0 (List.length l)
    | None => false
    end in
  let last :=
    match onClick with
    | Some f => if negb collapsed then [Call f] else []
    | None => []
    end in
  if hasSubNavItems && collapsed then
    (e1 ++ [PreventDefault] ++ last,
     {| expanded := negb (expanded state) |})
  else
    match onNavDismiss context with
    | Some dismiss =>
        (e1 ++ [Call dismiss]
            ++ match onClick with
               | Some f => if Nat.eqb f dismiss then [] else [Call f]
               | None => []
               end,
         state)
    | None => (e1 ++ last, state)
    end.

(** The events that reach a mounted item: the media query changes, or
    the item is clicked (on an element with the attribute [href]). *)
Inductive Event :=
| Resize (collapsed : bool)
| Click (collapsed : bool) (href : option string).

Definition step (props : ItemProps) (context : Context) (state : State)
    (event : Event) : State :=
  match event with
  | Resize collapsed => handleResize collapsed state
  | Click collapsed href =>
      snd (clickHandler (p_onClick props) props context collapsed href state)
  end.

Definition run (props : ItemProps) (context : Context) (events : list Event)
  : State :=
  fold_left (step props context) events initialState.

(** [Call f] occurs so many times in the effects. *)
Definition calls (f : Callback) (effects : list Effect) : nat :=
  List.length
    (filter (fun e => match e with Call g => Nat.eqb g f | _ => false end)
       effects).

Definition prevented (effects : list Effect) : bool :=
  existsb (fun e => match e with PreventDefault => true | _ => false end)
    effects.

Definition hasSubNavItems (props : ItemProps) : bool :=
  match p_subNavItems props with
  | Some l => Nat.ltb 0 (List.length l)
  | None => false
  end.

(** [subNavItems = []] in the destructuring of [render], on references. *)
Definition subRefsOf (props : ItemProps) : list SubNavItemRef :=
  match p_subNavItems props with Some l => l | None => [] end.

(** A parent with two sub-items, held at the addresses 1 and 2. *)
Definition sampleProps : ItemProps :=
  {| p_details := rule (Some "/x") None (Some true) None None;
     p_label := "x"; p_disabled := None; p_selected := Some false;
     p_subNavItems :=
       Some [ {| addr := 1; obj := subItem "/x/y" |};
              {| addr := 2; obj := subItem "/x/y/z" |} ];
     p_onClick := Some 7 |}.

Definition sampleContext : Context :=
  {| location := "/x/y/z/"; onNavDismiss := Some 9 |}.

(** A group heading: no [url], one sub-item. *)
Definition sampleHeading : ItemProps :=
  {| p_details := rule None None None None None;
     p_label := "group"; p_disabled := None; p_selected := None;
     p_subNavItems := Some [ {| addr := 1; obj := subItem "/x/y" |} ];
     p_onClick := None |}.

(** [collapsed] of an event. *)
Definition eventCollapsed (event : Event) : bool :=
  match event with
  | Resize collapsed => collapsed
  | Click collapsed _ => collapsed
  end.

(** The same rule with another [exactMatch]. *)
Definition withExactMatch (e : option bool) (item : ItemURLDetails)
  : ItemURLDetails :=
  {| url := url item; matches := matches item; exactMatch := e;
     matchPaths := matchPaths item; excludePaths := excludePaths item |}.

(** The entries of an optional sequence. *)
Definition entries (paths : option (list string)) : list string :=
  match paths with Some l => l | None => [] end.

(** The rule of a plain link: a [url] and nothing else. *)
Definition plain (u : string) : ItemURLDetails :=
  rule (Some u) None None None None.

(** * Properties *)

(** ** Strings *)

Section StringFacts.

Variable c : ascii.

Lemma split_fst_no_sep (s : string) : occurs c (fst (split c s)) = false.
Proof.
  induction s as [|a s IH]; simpl; [reflexivity|].
  destruct (split c s) as [h t]; simpl in *.
  destruct (Ascii.eqb a c) eqn:E; simpl; [reflexivity|].
  now rewrite E.
Qed.

Lemma split_fst_id (s : string) :
  occurs c s = false -> fst (split c s) = s.
Proof.
  induction s as [|a s IH]; simpl; [reflexivity|].
  intros H. apply orb_false_iff in H as [Ha Hs].
  specialize (IH Hs).
  destruct (split c s) as [h t]; simpl in *.
  rewrite Ha; simpl. now subst.
Qed.

Lemma split_fst_keeps_absent (d : ascii) (s : string) :
  occurs d s = false -> occurs d (fst (split c s)) = false.
Proof.
  induction s as [|a s IH]; simpl; [reflexivity|].
  intros H. apply orb_false_iff in H as [Ha Hs].
  specialize (IH Hs).
  destruct (split c s) as [h t]; simpl in *.
  destruct (Ascii.eqb a c); simpl; [reflexivity|].
  now rewrite Ha.
Qed.

Lemma occurs_append (s t : string) :
  occurs c (s ++ t) = occurs c s || occurs c t.
Proof.
  induction s as [|a s IH]; simpl; [reflexivity|].
  now rewrite IH, orb_assoc.
Qed.

End StringFacts.

Lemma endsWith_refl (s : string) : endsWith s s = true.
Proof. destruct s; simpl; now rewrite ?String.eqb_refl, ?Ascii.eqb_refl. Qed.

Lemma endsWith_cons (a : ascii) (s t : string) :
  endsWith (String a s) t
  = if String.eqb (String a s) t then true else endsWith s t.
Proof. reflexivity. Qed.

Lemma endsWith_append (s t : string) : endsWith (s ++ t) t = true.
Proof.
  induction s as [|a s IH].
  - apply endsWith_refl.
  - change (String a s ++ t)%string with (String a (s ++ t)).
    rewrite endsWith_cons, IH.
    now destruct (String.eqb (String a (s ++ t)) t).
Qed.

(** ** [normalizePathname] *)

Lemma bare_no_query (p : string) : occurs "?" (barePathname p) = false.
Proof. apply split_fst_keeps_absent, split_fst_no_sep. Qed.

Lemma bare_no_fragment (p : string) : occurs "#" (barePathname p) = false.
Proof. apply split_fst_no_sep. Qed.

Lemma bare_fixed (p : string) :
  occurs "?" p = false -> occurs "#" p = false -> barePathname p = p.
Proof.
  intros Hq Hf. unfold barePathname.
  rewrite (split_fst_id _ p Hq). now apply split_fst_id.
Qed.

Lemma normalize_cases (p : string) :
  (endsWith (barePathname p) "/" = true
   /\ normalizePathname p = barePathname p)
  \/ (endsWith (barePathname p) "/" = false
      /\ normalizePathname p = (barePathname p ++ "/")%string).
Proof.
  unfold normalizePathname.
  destruct (endsWith (barePathname p) "/"); auto.
Qed.

Lemma normalize_endsWith_slash (p : string) :
  endsWith (normalizePathname p) "/" = true.
Proof.
  destruct (normalize_cases p) as [[H ->] | [_ ->]];
    [exact H | apply endsWith_append].
Qed.

Lemma normalize_no_sep (p : string) :
  occurs "?" (normalizePathname p) = false
  /\ occurs "#" (normalizePathname p) = false.
Proof.
  destruct (normalize_cases p) as [[_ ->] | [_ ->]];
    rewrite ?occurs_append, ?bare_no_query, ?bare_no_fragment; auto.
Qed.

Lemma normalize_fixed (p : string) :
  occurs "?" p = false -> occurs "#" p = false ->
  endsWith p "/" = true -> normalizePathname p = p.
Proof.
  intros Hq Hf He. unfold normalizePathname.
  rewrite (bare_fixed p Hq Hf). now rewrite He.
Qed.

Lemma bare_prefix (c : ascii) (s : string) :
  exists rest, s = (fst (split c s) ++ rest)%string
               /\ (rest = "" \/ exists r, rest = String c r).
Proof.
  induction s as [|a s (rest & E & Hrest)]; simpl.
  - exists "". auto.
  - destruct (split c s) as [h t]; simpl in *.
    destruct (Ascii.eqb_spec a c) as [->|_]; simpl.
    + exists (String c s). eauto.
    + exists rest. split; [now rewrite E at 1 | exact Hrest].
Qed.

(** C8. Normalising twice is normalising once.  The normal form of [p]
    is the part of [p] before its first ['?'] or ['#'] (what follows is
    dropped), with a ['/'] appended unless it already ends with one; it
    contains neither ['?'] nor ['#'] and ends with ['/']. *)
Theorem normalizePathname_idempotent (p : string) :
  normalizePathname (normalizePathname p) = normalizePathname p
  /\ endsWith (normalizePathname p) "/" = true
  /\ occurs "?" (normalizePathname p) = false
  /\ occurs "#" (normalizePathname p) = false
  /\ (exists bare dropped,
        p = (bare ++ dropped)%string
        /\ (dropped = ""
            \/ (exists r, dropped = String "?" r)
            \/ (exists r, dropped = String "#" r))
        /\ normalizePathname p
           = if endsWith bare "/" then bare else (bare ++ "/")%string).
Proof.
  destruct (normalize_no_sep p) as [Hq Hf].
  pose proof (normalize_endsWith_slash p) as He.
  repeat split; auto using normalize_fixed.
  exists (barePathname p).
  destruct (bare_prefix "?" p) as (r1 & E1 & H1).
  destruct (bare_prefix "#" (fst (split "?" p))) as (r2 & E2 & H2).
  fold (barePathname p) in E2.
  exists (r2 ++ r1)%string. repeat split.
  - rewrite E1 at 1. rewrite E2 at 1.
    clear. induction (barePathname p); simpl; [|now f_equal].
    induction r2; simpl; [reflexivity | now f_equal].
  - destruct H2 as [-> | [r ->]]; simpl; [|eauto].
    destruct H1 as [-> | [r ->]]; eauto.
Qed.

(** ** [matchStateForItem] *)

Lemma isMatching_Active (state : MatchState) :
  isMatching state = true <-> Active state.
Proof.
  unfold Active; destruct state; simpl; split; intros H; auto;
    try discriminate; destruct H as [H | [H | H]]; discriminate.
Qed.

Lemma some_of_prefix_hit (location : string) (paths : option (list string)) :
  some_of paths (fun path => safeStartsWith location path)
  = prefix_hit location paths.
Proof.
  unfold some_of, prefix_hit, safeStartsWith.
  destruct paths as [l|]; [|reflexivity].
  induction l as [|x l IH]; simpl; [reflexivity | now rewrite IH].
Qed.

Lemma prefix_hit_In (location : string) (paths : list string) :
  prefix_hit location (Some paths) = true
  <-> exists path, In path paths /\ safeStartsWith location path = true.
Proof.
  rewrite <- some_of_prefix_hit. simpl. apply existsb_exists.
Qed.

Lemma classify_eq (item : ItemURLDetails) (location : string) :
  matchStateForItem item location = classify item location.
Proof.
  unfold matchStateForItem, classify, safeEqual.
  rewrite !some_of_prefix_hit. unfold safeStartsWith.
  destruct (url item) as [u|]; [|reflexivity].
  destruct (matches item) as [[|]|], (exactMatch item) as [[|]|];
    reflexivity.
Qed.

Lemma normalize_idem (p : string) :
  normalizePathname (normalizePathname p) = normalizePathname p.
Proof.
  destruct (normalize_no_sep p).
  apply normalize_fixed; auto using normalize_endsWith_slash.
Qed.

(** The classification reads the location through [normalizePathname]
    only. *)
Lemma matchStateForItem_normalized (item : ItemURLDetails)
    (location : string) :
  matchStateForItem item (normalizePathname location)
  = matchStateForItem item location.
Proof.
  rewrite !classify_eq. unfold classify, prefix_hit.
  now rewrite normalize_idem.
Qed.

(** C1, as the code has it.  A rule that has a [url] and
    [matches === true] is classified [MatchForced] at every location,
    whatever its [url], [exactMatch], [matchPaths] and [excludePaths]
    hold. *)
Theorem forced_match_with_url (item : ItemURLDetails) (location : string) :
  url item <> None ->
  matches item = Some true ->
  matchStateForItem item location = MatchForced.
Proof.
  unfold matchStateForItem. intros Hu ->.
  destruct (url item); [reflexivity | contradiction].
Qed.

Lemma forced_match_with_url_witness :
  matchStateForItem
    (rule (Some "/orders") (Some true) (Some true)
       (Some ["/drafts"]) (Some ["/"])) "/products?page=2"
  = MatchForced.
Proof.
  apply forced_match_with_url; simpl; [discriminate | reflexivity].
Defined.

(** C1 fails for a rule without [url]: the [url == null] test comes
    first and answers [NoMatch], also when [matches] is [true]. *)
Lemma forced_match_without_url :
  matches (rule None (Some true) None None None) = Some true
  /\ matchStateForItem (rule None (Some true) None None None) "/foo"
     = NoMatch
  /\ matchStateForItem (rule None (Some true) None None None) "/foo"
     <> MatchForced.
Proof. repeat split; discriminate. Qed.

(** C2, as the code has it.  A rule with [matches === false] is never
    classified as one of the three matching states; it is [Excluded] when
    it has a [url] and [NoMatch] when it has none. *)
Theorem forced_exclusion (item : ItemURLDetails) (location : string) :
  matches item = Some false ->
  ~ Active (matchStateForItem item location)
  /\ (url item <> None -> matchStateForItem item location = Excluded)
  /\ (url item = None -> matchStateForItem item location = NoMatch).
Proof.
  unfold matchStateForItem, Active. intros ->.
  destruct (url item); simpl; repeat split; try congruence;
    intros [H | [H | H]]; discriminate.
Qed.

Lemma forced_exclusion_witness :
  ~ Active (matchStateForItem
              (rule (Some "/foo") (Some false) None (Some ["/foo"]) None)
              "/foo")
  /\ matchStateForItem
       (rule (Some "/foo") (Some false) None (Some ["/foo"]) None) "/foo"
     = Excluded.
Proof.
  destruct (forced_exclusion
              (rule (Some "/foo") (Some false) None (Some ["/foo"]) None)
              "/foo" eq_refl) as (Hn & He & _).
  split; [exact Hn | apply He; discriminate].
Defined.

(** C2 fails for a rule without [url]: the answer is [NoMatch], not
    [Excluded]. *)
Lemma forced_exclusion_without_url :
  matches (rule None (Some false) None None None) = Some false
  /\ matchStateForItem (rule None (Some false) None None None) "/foo"
     = NoMatch
  /\ matchStateForItem (rule None (Some false) None None None) "/foo"
     <> Excluded.
Proof. repeat split; discriminate. Qed.

(** C3. [matchStateForItem] is the five-step classifier of the
    specification: no [url] gives [NoMatch]; then [matches === true] gives
    [MatchForced]; then [matches === false] or a normalised [excludePaths]
    prefix gives [Excluded]; then a normalised [matchPaths] prefix gives
    [MatchPaths]; otherwise the location is compared with [url], by
    normalised equality under [exactMatch] and by normalised prefix
    without it, giving [MatchUrl] or [NoMatch]. *)
Theorem matchStateForItem_precedence (item : ItemURLDetails)
    (location : string) :
  matchStateForItem item location = classify item location.
Proof. apply classify_eq. Qed.

(** C6, as the code has it.  For a rule that has a [url] and is not
    forced to match, a normalised [excludePaths] prefix of the location
    gives [Excluded], whatever [matchPaths] holds; so does the rule of the
    specification's example. *)
Theorem exclusion_before_matchPaths (item : ItemURLDetails)
    (location : string) (excluded : list string) (path : string) :
  url item <> None ->
  matches item <> Some true ->
  excludePaths item = Some excluded ->
  In path excluded ->
  startsWith (normalizePathname location) (normalizePathname path) = true ->
  matchStateForItem item location = Excluded
  /\ matchStateForItem
       (rule (Some "/foo") None None (Some ["/foo"]) (Some ["/foo/bar"]))
       "/foo/bar/" = Excluded.
Proof.
  intros Hu Hm He Hin Hp. split; [|reflexivity].
  unfold matchStateForItem. rewrite He.
  assert (Hx : some_of (Some excluded)
                 (fun q => safeStartsWith location q) = true).
  { rewrite some_of_prefix_hit. apply prefix_hit_In. now exists path. }
  destruct (url item); [|contradiction].
  destruct (matches item) as [[|]|];
    rewrite ?Hx, ?orb_true_r; congruence.
Qed.

Lemma exclusion_before_matchPaths_witness :
  matchStateForItem
    (rule (Some "/a") None (Some true)
       (Some ["/a"; "/b"]) (Some ["/z"; "/a/b"])) "/a/b/c#top"
  = Excluded.
Proof.
  refine (proj1 (exclusion_before_matchPaths
                   (rule (Some "/a") None (Some true)
                      (Some ["/a"; "/b"]) (Some ["/z"; "/a/b"]))
                   "/a/b/c#top" ["/z"; "/a/b"] "/a/b" _ _ _ _ _));
    simpl; try discriminate; try reflexivity; auto.
Defined.

(** C6 fails when [matches] is [true]: the forced match is tested before
    [excludePaths] is read. *)
Lemma exclusion_after_forced_match :
  excludePaths (rule (Some "/foo") (Some true) None None (Some ["/foo"]))
  = Some ["/foo"]
  /\ startsWith (normalizePathname "/foo/bar") (normalizePathname "/foo")
     = true
  /\ matchStateForItem
       (rule (Some "/foo") (Some true) None None (Some ["/foo"])) "/foo/bar"
     = MatchForced
  /\ matchStateForItem
       (rule (Some "/foo") (Some true) None None (Some ["/foo"])) "/foo/bar"
     <> Excluded.
Proof. repeat split; discriminate. Qed.

(** C7. Without [exactMatch] the location has to start with [url], with
    it the two have to be equal, both after normalisation: ["/foo"]
    matches ["/foo/bar"] by prefix and not exactly; the appended ['/']
    keeps ["/foo-bar"] from starting with ["/foo"]. *)
Theorem prefix_versus_exact :
  matchStateForItem (rule (Some "/foo") None (Some false) None None)
    "/foo/bar" = MatchUrl
  /\ matchStateForItem (rule (Some "/foo") None (Some true) None None)
       "/foo/bar" = NoMatch
  /\ safeStartsWith "/foo-bar" "/foo" = false
  /\ matchStateForItem (rule (Some "/foo") None None None None)
       "/foo-bar" = NoMatch
  /\ (forall u location,
        matchStateForItem (rule (Some u) None (Some true) None None) location
        = if String.eqb (normalizePathname location) (normalizePathname u)
          then MatchUrl else NoMatch)
  /\ (forall u location,
        matchStateForItem (rule (Some u) None (Some false) None None)
          location
        = if startsWith (normalizePathname location) (normalizePathname u)
          then MatchUrl else NoMatch).
Proof. repeat split. Qed.

(** C9. A trailing slash, a query string or a fragment on the location
    does not change the classification: ["/foo"] under [exactMatch] is
    matched by ["/foo"] and by ["/foo/"], and ["/foo"] is matched by
    ["/foo?tab=1"]; for every rule, a location and its normal form are
    classified alike. *)
Theorem location_suffix_insensitive :
  matchStateForItem (rule (Some "/foo") None (Some true) None None) "/foo"
  = MatchUrl
  /\ matchStateForItem (rule (Some "/foo") None (Some true) None None)
       "/foo/" = MatchUrl
  /\ matchStateForItem (rule (Some "/foo") None None None None)
       "/foo?tab=1" = MatchUrl
  /\ (forall item location,
        matchStateForItem item (normalizePathname location)
        = matchStateForItem item location).
Proof.
  repeat split. apply matchStateForItem_normalized.
Qed.

(** C10. The empty [url] normalises to ["/"], so a rule that has nothing
    but an empty [url] is classified [MatchUrl] at every location whose
    normal form begins with ['/']. *)
Theorem empty_url_matches (location : string) :
  startsWith (normalizePathname location) "/" = true ->
  normalizePathname "" = "/"
  /\ matchStateForItem (rule (Some "") None None None None) location
     = MatchUrl.
Proof.
  intros H. split; [reflexivity|].
  unfold matchStateForItem, safeStartsWith; simpl.
  change (normalizePathname "") with "/". now rewrite H.
Qed.

Lemma empty_url_matches_witness :
  startsWith (normalizePathname "/settings/profile?tab=2") "/" = true
  /\ matchStateForItem (rule (Some "") None None None None)
       "/settings/profile?tab=2" = MatchUrl.
Proof.
  split; [reflexivity|].
  apply (empty_url_matches "/settings/profile?tab=2"). reflexivity.
Defined.

(** ** [isNavItemActive] *)

Lemma filter_nonempty {A} (f : A -> bool) (l : list A) :
  Nat.ltb 0 (List.length (filter f l)) = true
  <-> exists x, In x l /\ f x = true.
Proof.
  split.
  - destruct (filter f l) as [|x l'] eqn:E; simpl; [discriminate|].
    intros _. exists x. apply filter_In. rewrite E. now left.
  - intros (x & Hx). apply filter_In in Hx.
    destruct (filter f l); [contradiction | reflexivity].
Qed.

Lemma subItemMatches_ActiveAt (location : string) (item : SubNavItem) :
  subItemMatches location item = true <-> ActiveAt location item.
Proof. apply isMatching_Active. Qed.

(** C5. [isNavItemActive] answers [true] exactly when the item itself is
    classified [MatchForced], [MatchUrl] or [MatchPaths], or one of its
    sub-items is; so an item that does not match itself is active as soon
    as one of its sub-items matches. *)
Theorem isNavItemActive_iff (navItem : Props) (currentPath : string) :
  (isNavItemActive navItem currentPath = Some true
   <-> Active (matchStateForItem (details navItem) currentPath)
       \/ exists item, In item (subItemsOf navItem)
                       /\ ActiveAt currentPath item)
  /\ (forall item,
        ~ Active (matchStateForItem (details navItem) currentPath) ->
        In item (subItemsOf navItem) ->
        ActiveAt currentPath item ->
        isNavItemActive navItem currentPath = Some true).
Proof.
  assert (Hiff : isNavItemActive navItem currentPath = Some true
     <-> Active (matchStateForItem (details navItem) currentPath)
         \/ exists item, In item (subItemsOf navItem)
                         /\ ActiveAt currentPath item).
  { unfold isNavItemActive, subItemsOf.
    rewrite <- isMatching_Active.
    destruct (isMatching (matchStateForItem (details navItem) currentPath)).
    - split; auto.
    - destruct (subNavItems navItem) as [l|]; simpl.
      + split.
        * intros H. right. injection H as H.
          apply filter_nonempty in H as (x & Hin & Hx).
          exists x. split; [exact Hin | now apply subItemMatches_ActiveAt].
        * intros [H | (x & Hin & Hx)]; [discriminate|].
          f_equal. apply filter_nonempty. exists x.
          split; [exact Hin | now apply subItemMatches_ActiveAt].
      + split; [discriminate|].
        intros [H | (x & [] & _)]; discriminate. }
  split; [exact Hiff|].
  intros item _ Hin Hact. apply Hiff. right. now exists item.
Qed.

Example parent_active_through_sub_item :
  let parent :=
    {| details := rule (Some "/x") None (Some true) None None;
       label := "x"; disabled := None; selected := None;
       subNavItems := Some [subItem "/x/y"] |} in
  matchStateForItem (details parent) "/x/y" = NoMatch
  /\ isNavItemActive parent "/x/y" = Some true.
Proof. split; reflexivity. Qed.

(** ** [longestMatch] *)

Section Sorting.

Context {A : Type} (compareFn : A -> A -> Z).

Lemma sort_head (x : A) (l : list A) :
  hd_error (sort compareFn (x :: l))
  = match hd_error (sort compareFn l) with
    | None => Some x
    | Some y => if (0 <? compareFn x y)%Z then Some y else Some x
    end.
Proof.
  simpl. destruct (sort compareFn l) as [|y l']; simpl; [reflexivity|].
  now destruct (0 <? compareFn x y)%Z.
Qed.

End Sorting.

(** [sort] rearranges its argument, and by [byUrlLength] the result runs
    from the longest url to the shortest. *)
Lemma sort_insert_perm {A} (compareFn : A -> A -> Z) (x : A) (l : list A) :
  Permutation (x :: l) (sort_insert compareFn x l).
Proof.
  induction l as [|y l IH]; simpl; [reflexivity|].
  destruct (0 <? compareFn x y)%Z; [|reflexivity].
  rewrite perm_swap. now constructor.
Qed.

Lemma sort_perm {A} (compareFn : A -> A -> Z) (l : list A) :
  Permutation l (sort compareFn l).
Proof.
  induction l as [|x l IH]; simpl; [constructor|].
  rewrite <- sort_insert_perm. now constructor.
Qed.

Lemma sort_insert_sorted (x : SubNavItem) (l : list SubNavItem) :
  Sorted longer_first l -> Sorted longer_first (sort_insert byUrlLength x l).
Proof.
  induction 1 as [|y l Hs IH Hhd]; simpl; [repeat constructor|].
  unfold byUrlLength at 1. fold (urlLength x) (urlLength y).
  destruct (Z.ltb_spec 0 (Z.of_nat (urlLength y) - Z.of_nat (urlLength x))).
  - constructor; [exact IH|].
    destruct Hhd as [|z l Hz]; simpl.
    + constructor. unfold longer_first. lia.
    + unfold byUrlLength. fold (urlLength x) (urlLength z).
      destruct (Z.ltb_spec 0 (Z.of_nat (urlLength z) - Z.of_nat (urlLength x)));
        constructor; [exact Hz | unfold longer_first; lia].
  - repeat constructor; auto. unfold longer_first. lia.
Qed.

Lemma sort_sorted (l : list SubNavItem) :
  Sorted longer_first (sort byUrlLength l).
Proof.
  induction l; simpl; [constructor | now apply sort_insert_sorted].
Qed.

(** The head of the sorted array is the first of the longest urls. *)
Lemma sort_head_first_longest (l : list SubNavItem) :
  match hd_error (sort byUrlLength l) with
  | None => l = []
  | Some best =>
      exists before after,
        l = before ++ best :: after
        /\ (forall y, In y before -> urlLength y < urlLength best)
        /\ (forall y, In y after -> urlLength y <= urlLength best)
  end.
Proof.
  induction l as [|x l IH]; [reflexivity|].
  rewrite sort_head.
  destruct (hd_error (sort byUrlLength l)) as [y|].
  - destruct IH as (before & after & -> & Hb & Ha).
    unfold byUrlLength. fold (urlLength x) (urlLength y).
    destruct (Z.ltb_spec 0 (Z.of_nat (urlLength y) - Z.of_nat (urlLength x)))
      as [Hlt | Hge].
    + exists (x :: before), after. repeat split; [|exact Ha].
      intros z [<- | Hz]; [lia | now apply Hb].
    + exists [], (before ++ y :: after). repeat split; [easy|].
      intros z Hz. apply in_app_or in Hz as [Hz | [<- | Hz]].
      * apply Hb in Hz. lia.
      * lia.
      * apply Ha in Hz. lia.
  - subst l. exists [], []. repeat split; easy.
Qed.

Lemma filter_split {A} (f : A -> bool) (l before after : list A) (m : A) :
  filter f l = before ++ m :: after ->
  exists l1 l2,
    l = l1 ++ m :: l2 /\ filter f l1 = before /\ filter f l2 = after
    /\ f m = true.
Proof.
  revert before. induction l as [|x l IH]; intros before E; simpl in E.
  - now destruct before.
  - destruct (f x) eqn:Hx.
    + destruct before as [|b before]; simpl in E; injection E as -> E.
      * exists [], l. auto.
      * destruct (IH _ E) as (l1 & l2 & -> & H1 & H2 & Hm).
        exists (b :: l1), l2. simpl. rewrite Hx, H1. auto.
    + destruct (IH _ E) as (l1 & l2 & -> & H1 & H2 & Hm).
      exists (x :: l1), l2. simpl. rewrite Hx. auto.
Qed.

Lemma longestMatch_None (items : list SubNavItem) (location : string) :
  longestMatch items location = None
  <-> forall y, In y items -> ~ ActiveAt location y.
Proof.
  unfold longestMatch.
  pose proof (sort_head_first_longest
                (filter (subItemMatches location) items)) as H.
  destruct (hd_error _) as [best|].
  - destruct H as (before & after & E & _).
    split; [discriminate|]. intros Hno. exfalso.
    assert (Hin : In best (filter (subItemMatches location) items))
      by (rewrite E; apply in_elt).
    apply filter_In in Hin as [Hin Hb].
    apply (Hno best Hin). now apply subItemMatches_ActiveAt.
  - split; [|reflexivity]. intros _ y Hin Hy.
    apply subItemMatches_ActiveAt in Hy.
    assert (Hf : In y (filter (subItemMatches location) items))
      by now apply filter_In.
    now rewrite H in Hf.
Qed.

Lemma longestMatch_Some (items : list SubNavItem) (location : string)
    (best : SubNavItem) :
  longestMatch items location = Some best ->
  exists before after,
    items = before ++ best :: after
    /\ ActiveAt location best
    /\ (forall y, In y before -> ActiveAt location y ->
                  urlLength y < urlLength best)
    /\ (forall y, In y after -> ActiveAt location y ->
                  urlLength y <= urlLength best).
Proof.
  unfold longestMatch. intros E.
  pose proof (sort_head_first_longest
                (filter (subItemMatches location) items)) as H.
  rewrite E in H. destruct H as (b & a & Hf & Hb & Ha).
  apply filter_split in Hf as (l1 & l2 & -> & <- & <- & Hm).
  exists l1, l2. split; [reflexivity|].
  split; [now apply subItemMatches_ActiveAt|].
  split; intros y Hin Hy; [apply Hb | apply Ha]; apply filter_In;
    (split; [exact Hin | now apply subItemMatches_ActiveAt]).
Qed.

Lemma render_longestMatch_eq (props : Props) (expanded : bool)
    (location : string) :
  render_longestMatch props expanded location
  = match url (details props) with
    | None => None
    | Some _ => longestMatch (subItemsOf props) location
    end.
Proof.
  unfold render_longestMatch, longestMatch. fold (subItemsOf props).
  destruct (url (details props)); [|reflexivity].
  destruct (subItemsOf props) as [|x l] eqn:E; [reflexivity|].
  cbn [List.length Nat.ltb Nat.leb andb].
  destruct (filter (subItemMatches location) (x :: l)) as [|m ms];
    [|now rewrite !orb_true_r].
  now destruct (_ || _ || _).
Qed.

(** C4. [longestMatch] is an active sub-item whose [url] is at least as
    long as that of every active sub-item and longer than that of every
    active sub-item before it in [subNavItems]; it is undefined exactly
    when no sub-item is active, as for the empty list.  [render], which
    sorts only when the item has a [url] and there are sub-items to show,
    arrives at the same value for every item that has a [url]; for an
    item without [url] it returns the button and flags nothing. *)
Theorem longestMatch_first_longest_active (items : list SubNavItem)
    (location : string) :
  longestMatch [] location = None
  /\ (longestMatch items location = None
      <-> forall y, In y items -> ~ ActiveAt location y)
  /\ (forall best,
        longestMatch items location = Some best ->
        exists before after,
          items = before ++ best :: after
          /\ ActiveAt location best
          /\ (forall y, In y before -> ActiveAt location y ->
                        urlLength y < urlLength best)
          /\ (forall y, In y after -> ActiveAt location y ->
                        urlLength y <= urlLength best))
  /\ (forall props expanded,
        render_longestMatch props expanded location
        = match url (details props) with
          | None => None
          | Some _ => longestMatch (subItemsOf props) location
          end).
Proof.
  split; [reflexivity|].
  split; [apply longestMatch_None|].
  split; [apply longestMatch_Some | intros; apply render_longestMatch_eq].
Qed.

Example longestMatch_longer_url :
  longestMatch [subItem "/a"; subItem "/a/b"] "/a/b/" = Some (subItem "/a/b").
Proof. reflexivity. Qed.

(** Both urls have four characters and both match; the first one stays
    first. *)
Example longestMatch_tie_first :
  longestMatch [subItem "/a?x"; subItem "/a/b"] "/a/b/"
  = Some (subItem "/a?x")
  /\ longestMatch [subItem "/a/b"; subItem "/a?x"] "/a/b/"
     = Some (subItem "/a/b").
Proof. split; reflexivity. Qed.

(** * Further properties of the matching helpers *)

Lemma startsWith_trans (a b c : string) :
  startsWith a b = true -> startsWith b c = true -> startsWith a c = true.
Proof.
  revert a b. induction c as [|z c IH]; intros a b Hab Hbc;
    [now destruct a|].
  destruct b as [|y b]; [discriminate|].
  destruct a as [|x a]; [discriminate|].
  simpl in *. apply andb_true_iff in Hab as [Hxy Hab].
  apply andb_true_iff in Hbc as [Hyz Hbc].
  apply Ascii.eqb_eq in Hxy, Hyz. subst.
  rewrite Ascii.eqb_refl. simpl. eauto.
Qed.

Lemma startsWith_antisym (a b : string) :
  startsWith a b = true -> startsWith b a = true -> a = b.
Proof.
  revert b. induction a as [|x a IH]; intros [|y b] Hab Hba;
    try reflexivity; try discriminate.
  simpl in *. apply andb_true_iff in Hab as [Hxy Hab].
  apply andb_true_iff in Hba as [_ Hba].
  apply Ascii.eqb_eq in Hxy. subst. f_equal. auto.
Qed.

Lemma startsWith_empty (s : string) : startsWith s "" = true.
Proof. now destruct s. Qed.

Lemma startsWith_same (s : string) : startsWith s s = true.
Proof. induction s; simpl; [reflexivity|]. now rewrite Ascii.eqb_refl. Qed.

Lemma startsWith_app_cancel (u x y : string) :
  startsWith (u ++ x) (u ++ y) = startsWith x y.
Proof.
  induction u as [|a u IH]; simpl; [reflexivity|].
  now rewrite Ascii.eqb_refl.
Qed.

Lemma startsWith_app (u x : string) : startsWith (u ++ x) u = true.
Proof.
  induction u as [|a u IH]; simpl; [now destruct x|].
  now rewrite Ascii.eqb_refl.
Qed.

Lemma append_assoc (a b c : string) :
  ((a ++ b) ++ c = a ++ (b ++ c))%string.
Proof. induction a; simpl; [reflexivity | now f_equal]. Qed.

Lemma split_fst_append (c : ascii) (s t : string) :
  occurs c s = false ->
  fst (split c (s ++ t)) = (s ++ fst (split c t))%string.
Proof.
  induction s as [|a s IH]; simpl; [reflexivity|].
  intros H. apply orb_false_iff in H as [Ha Hs]. specialize (IH Hs).
  destruct (split c (s ++ t)) as [h r]; simpl in *.
  rewrite Ha; simpl. now rewrite IH.
Qed.

Lemma bare_append (s t : string) :
  occurs "?" s = false -> occurs "#" s = false ->
  barePathname (s ++ t) = (s ++ barePathname t)%string.
Proof.
  intros Hq Hf. unfold barePathname.
  rewrite (split_fst_append "?" s t Hq).
  now rewrite (split_fst_append "#" s _ Hf).
Qed.

Lemma bare_cons (c : ascii) (s : string) :
  barePathname (String c s)
  = if Ascii.eqb c "?" || Ascii.eqb c "#" then ""
    else String c (barePathname s).
Proof.
  unfold barePathname. simpl.
  destruct (split "?" s) as [h r]; simpl.
  destruct (Ascii.eqb c "?"); simpl; [reflexivity|].
  destruct (split "#" h) as [h' r']; simpl.
  now destruct (Ascii.eqb c "#").
Qed.

(** X1. Prefix matching is an order on paths: every path matches itself,
    a prefix of a prefix is a prefix, and two paths that are prefixes of
    each other are equal for [safeEqual]. *)
Theorem safeStartsWith_order :
  (forall a, safeStartsWith a a = true)
  /\ (forall a b c,
        safeStartsWith a b = true -> safeStartsWith b c = true ->
        safeStartsWith a c = true)
  /\ (forall a b,
        safeStartsWith a b = true -> safeStartsWith b a = true ->
        safeEqual a b = true).
Proof.
  unfold safeStartsWith, safeEqual. repeat split.
  - intros a. apply startsWith_same.
  - intros a b c. apply startsWith_trans.
  - intros a b Hab Hba. apply String.eqb_eq. now apply startsWith_antisym.
Qed.

(** X2. A location that continues a [url] matches it by prefix exactly
    when the continuation starts a new segment, a query or a fragment:
    for a [url] without query, fragment and trailing slash, [url]
    followed by the character [c] and anything else is matched if and
    only if [c] is ['/'], ['?'] or ['#']. *)
Theorem safeStartsWith_boundary (u : string) (c : ascii) (rest : string) :
  occurs "?" u = false ->
  occurs "#" u = false ->
  endsWith u "/" = false ->
  safeStartsWith (u ++ String c rest) u
  = (Ascii.eqb c "/" || Ascii.eqb c "?" || Ascii.eqb c "#").
Proof.
  intros Hq Hf He. unfold safeStartsWith.
  assert (Hu : normalizePathname u = (u ++ "/")%string).
  { unfold normalizePathname. rewrite (bare_fixed u Hq Hf). now rewrite He. }
  rewrite Hu. unfold normalizePathname.
  rewrite (bare_append u _ Hq Hf), bare_cons.
  destruct (Ascii.eqb c "?" || Ascii.eqb c "#") eqn:Hc.
  - replace (u ++ "")%string with u
      by (clear; induction u; simpl; [reflexivity | now f_equal]).
    rewrite He, startsWith_same.
    apply orb_true_iff in Hc as [-> | ->]; now rewrite ?orb_true_r.
  - apply orb_false_iff in Hc as [-> ->]. rewrite !orb_false_r.
    set (b := String c (barePathname rest)).
    assert (Hb : forall x, startsWith (u ++ x) (u ++ "/") = startsWith x "/")
      by (intros; apply startsWith_app_cancel).
    destruct (endsWith (u ++ b) "/").
    + rewrite Hb. subst b. simpl.
      now rewrite startsWith_empty, andb_true_r.
    + rewrite append_assoc, Hb. subst b. simpl.
      now rewrite startsWith_empty, andb_true_r.
Qed.

Lemma safeStartsWith_boundary_witness :
  safeStartsWith "/foo-bar" "/foo" = false
  /\ safeStartsWith "/foo/bar" "/foo" = true.
Proof.
  split.
  - apply (safeStartsWith_boundary "/foo" "-" "bar"); reflexivity.
  - apply (safeStartsWith_boundary "/foo" "/" "bar"); reflexivity.
Defined.

(** X3. [exactMatch] only narrows a rule: at every location the rule
    with [exactMatch] on is classified as the rule with [exactMatch] off
    or absent, except that a [MatchUrl] may become [NoMatch]. *)
Theorem exactMatch_narrows (item : ItemURLDetails) (e : option bool)
    (location : string) :
  e <> Some true ->
  matchStateForItem (withExactMatch (Some true) item) location
  = matchStateForItem (withExactMatch e item) location
  \/ (matchStateForItem (withExactMatch (Some true) item) location = NoMatch
      /\ matchStateForItem (withExactMatch e item) location = MatchUrl).
Proof.
  intros He. unfold matchStateForItem, withExactMatch; simpl.
  destruct (url item) as [u|]; [|now left].
  assert (Hloose : forall b : bool,
            (if match e with Some true => safeEqual location u
                        | _ => safeStartsWith location u end
             then MatchUrl else NoMatch)
            = if safeStartsWith location u then MatchUrl else NoMatch).
  { intros _. destruct e as [[|]|]; congruence. }
  rewrite (Hloose true).
  assert (Himp : safeEqual location u = true ->
                 safeStartsWith location u = true).
  { unfold safeEqual, safeStartsWith. intros H.
    apply String.eqb_eq in H. rewrite H. apply startsWith_same. }
  destruct (matches item) as [[|]|]; simpl; auto;
    destruct (some_of (excludePaths item) _); auto;
    destruct (some_of (matchPaths item) _); auto;
    (destruct (safeEqual location u);
       [rewrite (Himp eq_refl) | destruct (safeStartsWith location u)]);
    auto.
Qed.

Lemma exactMatch_narrows_witness :
  matchStateForItem (withExactMatch (Some true) (plain "/foo")) "/foo/bar"
  = NoMatch
  /\ matchStateForItem (withExactMatch None (plain "/foo")) "/foo/bar"
     = MatchUrl.
Proof.
  destruct (exactMatch_narrows (plain "/foo") None "/foo/bar")
    as [H | H]; [discriminate | discriminate H | exact H].
Defined.

Lemma plain_MatchUrl (u location : string) :
  matchStateForItem (plain u) location
  = if safeStartsWith location u then MatchUrl else NoMatch.
Proof. reflexivity. Qed.

(** X4. Nested links light up together: when the [url] of a plain link
    starts (after normalisation) with the [url] of another plain link,
    every location that matches the first matches the second. *)
Theorem nested_url_matches (inner outer location : string) :
  safeStartsWith inner outer = true ->
  matchStateForItem (plain inner) location = MatchUrl ->
  matchStateForItem (plain outer) location = MatchUrl.
Proof.
  rewrite !plain_MatchUrl. unfold safeStartsWith. intros Hio Hin.
  destruct (startsWith (normalizePathname location)
              (normalizePathname inner)) eqn:E; [|discriminate].
  now rewrite (startsWith_trans _ _ _ E Hio).
Qed.

Lemma nested_url_matches_witness :
  matchStateForItem (plain "/x") "/x/y/z?tab=1" = MatchUrl.
Proof.
  apply (nested_url_matches "/x/y" "/x" "/x/y/z?tab=1"); reflexivity.
Defined.

Lemma some_of_ext (location : string) (p q : option (list string)) :
  (forall path, In path (entries p) <-> In path (entries q)) ->
  some_of p (fun path => safeStartsWith location path)
  = some_of q (fun path => safeStartsWith location path).
Proof.
  intros H.
  assert (Hex : forall l, existsb (fun path => safeStartsWith location path) l
                = some_of (Some l) (fun path => safeStartsWith location path))
    by reflexivity.
  assert (Heq : forall l l' : list string,
            (forall path, In path l <-> In path l') ->
            existsb (fun path => safeStartsWith location path) l
            = existsb (fun path => safeStartsWith location path) l').
  { intros l l' Hll. apply eq_true_iff_eq.
    rewrite !existsb_exists. split; intros (x & Hx & Hs); exists x;
      (split; [now apply Hll | exact Hs]). }
  destruct p as [l|], q as [l'|]; simpl in *; auto.
  - exact (Heq l [] H).
  - exact (Heq [] l' H).
Qed.

(** X5. [matchPaths] and [excludePaths] are read as sets: two rules
    that agree on [url], [matches] and [exactMatch] and whose path
    sequences have the same entries (in any order, with any repetition,
    an absent sequence having none) are classified alike at every
    location. *)
Theorem paths_as_sets (item item' : ItemURLDetails) (location : string) :
  url item = url item' ->
  matches item = matches item' ->
  exactMatch item = exactMatch item' ->
  (forall path, In path (entries (matchPaths item))
                <-> In path (entries (matchPaths item'))) ->
  (forall path, In path (entries (excludePaths item))
                <-> In path (entries (excludePaths item'))) ->
  matchStateForItem item location = matchStateForItem item' location.
Proof.
  intros Hu Hm He Hmp Hep. unfold matchStateForItem.
  rewrite Hu, Hm, He.
  rewrite (some_of_ext location _ _ Hmp), (some_of_ext location _ _ Hep).
  reflexivity.
Qed.

Lemma paths_as_sets_witness :
  matchStateForItem
    (rule (Some "/a") None None (Some ["/b"; "/c"; "/b"]) (Some [])) "/c/d"
  = matchStateForItem
      (rule (Some "/a") None None (Some ["/c"; "/b"]) None) "/c/d".
Proof.
  apply paths_as_sets; try reflexivity; simpl; intros path; tauto.
Defined.

(** X6. What [isNavItemActive] answers when it does not answer [true]:
    [undefined] exactly when the item does not match and has no
    [subNavItems], and [false] exactly when the item does not match and
    none of the [subNavItems] it has matches. *)
Theorem isNavItemActive_not_true (navItem : Props) (currentPath : string) :
  (isNavItemActive navItem currentPath = None
   <-> ~ Active (matchStateForItem (details navItem) currentPath)
       /\ subNavItems navItem = None)
  /\ (isNavItemActive navItem currentPath = Some false
      <-> ~ Active (matchStateForItem (details navItem) currentPath)
          /\ exists items,
               subNavItems navItem = Some items
               /\ forall item, In item items -> ~ ActiveAt currentPath item).
Proof.
  unfold isNavItemActive. rewrite <- isMatching_Active.
  destruct (isMatching (matchStateForItem (details navItem) currentPath)).
  - split; (split; [discriminate | intros [H _]; now elim H]).
  - destruct (subNavItems navItem) as [l|]; simpl.
    + split; (split; [|intros [_ H]]).
      * discriminate.
      * discriminate.
      * intros H. split; [discriminate|]. exists l. split; [reflexivity|].
        intros item Hin Hact. injection H as H.
        assert (Ht : Nat.ltb 0 (List.length
                       (filter (subItemMatches currentPath) l)) = true).
        { apply filter_nonempty. exists item.
          split; [exact Hin | now apply subItemMatches_ActiveAt]. }
        congruence.
      * destruct H as (items & E & Hno). injection E as <-. f_equal.
        destruct (Nat.ltb 0 _) eqn:Ht; [|reflexivity].
        apply filter_nonempty in Ht as (x & Hin & Hx).
        elim (Hno x Hin). now apply subItemMatches_ActiveAt.
    + split; (split; [|intros [_ H]]).
      * intros _. split; [discriminate | reflexivity].
      * reflexivity.
      * discriminate.
      * destruct H as (items & E & _). discriminate.
Qed.

(** * [render] *)

Lemma filter_map_obj (f : SubNavItem -> bool) (l : list SubNavItemRef) :
  map obj (filter (fun item => f (obj item)) l) = filter f (map obj l).
Proof.
  induction l as [|x l IH]; simpl; [reflexivity|].
  destruct (f (obj x)); simpl; now rewrite IH.
Qed.

Lemma sort_insert_map {A B} (g : A -> B) (compareFn : B -> B -> Z)
    (x : A) (l : list A) :
  map g (sort_insert (fun a b => compareFn (g a) (g b)) x l)
  = sort_insert compareFn (g x) (map g l).
Proof.
  induction l as [|y l IH]; simpl; [reflexivity|].
  destruct (0 <? compareFn (g x) (g y))%Z; simpl; now rewrite ?IH.
Qed.

Lemma sort_map {A B} (g : A -> B) (compareFn : B -> B -> Z) (l : list A) :
  map g (sort (fun a b => compareFn (g a) (g b)) l)
  = sort compareFn (map g l).
Proof.
  induction l as [|x l IH]; simpl; [reflexivity|].
  now rewrite sort_insert_map, IH.
Qed.

Lemma hd_error_map {A B} (g : A -> B) (l : list A) :
  hd_error (map g l) = option_map g (hd_error l).
Proof. now destruct l. Qed.

(** The reference [render] picks holds the sub-item [longestMatch]
    picks. *)
Lemma longest_ref_obj (subs : list SubNavItemRef) (loc : string) :
  option_map obj
    (hd_error (sort byUrlLengthRef
                 (filter (fun item => subItemMatches loc (obj item)) subs)))
  = longestMatch (map obj subs) loc.
Proof.
  unfold longestMatch, byUrlLengthRef.
  now rewrite <- hd_error_map, sort_map, filter_map_obj.
Qed.

Lemma longest_ref_In (subs : list SubNavItemRef) (loc : string)
    (best : SubNavItemRef) :
  hd_error (sort byUrlLengthRef
              (filter (fun item => subItemMatches loc (obj item)) subs))
  = Some best ->
  In best subs /\ ActiveAt loc (obj best).
Proof.
  intros H.
  assert (Hin : In best (filter (fun item => subItemMatches loc (obj item))
                           subs)).
  { apply (Permutation_in best
             (Permutation_sym (sort_perm byUrlLengthRef _))).
    destruct (sort byUrlLengthRef _); [discriminate|].
    injection H as ->. now left. }
  apply filter_In in Hin as [Hin Hm].
  split; [exact Hin | now apply subItemMatches_ActiveAt].
Qed.

Lemma longest_ref_exists (subs : list SubNavItemRef) (loc : string)
    (item : SubNavItemRef) :
  In item subs -> ActiveAt loc (obj item) ->
  exists best,
    hd_error (sort byUrlLengthRef
                (filter (fun r => subItemMatches loc (obj r)) subs))
    = Some best.
Proof.
  intros Hin Hact.
  assert (Hf : In item (filter (fun r => subItemMatches loc (obj r)) subs))
    by (apply filter_In; split;
        [exact Hin | now apply subItemMatches_ActiveAt]).
  apply (Permutation_in item (sort_perm byUrlLengthRef _)) in Hf.
  destruct (sort byUrlLengthRef _) as [|b l]; [contradiction|].
  now exists b.
Qed.

Lemma render_with_active_child (props : ItemProps) (state : State)
    (context : Context) (u : string) (item : SubNavItemRef) :
  url (p_details props) = Some u ->
  In item (subRefsOf props) ->
  ActiveAt (location context) (obj item) ->
  exists best,
    In best (subRefsOf props)
    /\ ActiveAt (location context) (obj best)
    /\ longestMatch (map obj (subRefsOf props)) (location context)
       = Some (obj best)
    /\ render props state context
       = LinkMarkup u (truthy (p_disabled props)) false true
           (p_onClick props)
           (Some (map (fun r =>
                         childProps r (Nat.eqb (addr r) (addr best))
                           (onNavDismiss context))
                    (subRefsOf props))).
Proof.
  intros Hu Hin Hact.
  destruct (longest_ref_exists _ _ _ Hin Hact) as [best Hbest].
  destruct (longest_ref_In _ _ _ Hbest) as [Hbin Hbact].
  exists best. repeat split; auto.
  - rewrite <- longest_ref_obj, Hbest. reflexivity.
  - unfold render. fold (subRefsOf props). rewrite Hu, Hbest.
    assert (Hlen : Nat.ltb 0 (List.length (subRefsOf props)) = true)
      by (destruct (subRefsOf props); [contradiction | reflexivity]).
    assert (Hlen0 : Nat.eqb (List.length (subRefsOf props)) 0 = false)
      by (destruct (subRefsOf props); [contradiction | reflexivity]).
    assert (Hchild : Nat.ltb 0 (List.length
               (filter (fun r => subItemMatches (location context) (obj r))
                  (subRefsOf props))) = true).
    { apply filter_nonempty. exists item.
      split; [exact Hin | now apply subItemMatches_ActiveAt]. }
    rewrite Hlen, Hlen0, Hchild, !orb_true_r, andb_false_r. reflexivity.
Qed.

(** X7. A matching sub-item is always shown: when the item has a [url]
    and one of its sub-items matches the location, [render] returns the
    link with the class [subNavActive], without the class [selected], and
    with the secondary navigation holding one child per sub-item, whatever
    [expanded] and the [selected] override are.  The child flagged
    [matches] is the object [longestMatch] picked. *)
Theorem active_child_is_shown (props : ItemProps) (state : State)
    (context : Context) (u : string) (item : SubNavItemRef) :
  url (p_details props) = Some u ->
  In item (subRefsOf props) ->
  ActiveAt (location context) (obj item) ->
  exists best,
    In best (subRefsOf props)
    /\ ActiveAt (location context) (obj best)
    /\ longestMatch (map obj (subRefsOf props)) (location context)
       = Some (obj best)
    /\ render props state context
       = LinkMarkup u (truthy (p_disabled props)) false true
           (p_onClick props)
           (Some (map (fun r =>
                         childProps r (Nat.eqb (addr r) (addr best))
                           (onNavDismiss context))
                    (subRefsOf props))).
Proof. apply render_with_active_child. Qed.

Lemma active_child_is_shown_witness :
  exists best,
    longestMatch (map obj (subRefsOf sampleProps)) (location sampleContext)
    = Some (obj best)
    /\ render sampleProps initialState sampleContext
       = LinkMarkup "/x" false false true (Some 7)
           (Some (map (fun r =>
                         childProps r (Nat.eqb (addr r) (addr best))
                           (Some 9))
                    (subRefsOf sampleProps))).
Proof.
  destruct (active_child_is_shown sampleProps initialState sampleContext
              "/x" {| addr := 1; obj := subItem "/x/y" |})
    as (best & _ & _ & Hl & Hr).
  - reflexivity.
  - simpl. auto.
  - unfold ActiveAt, Active. simpl. auto.
  - exists best. split; [exact Hl | exact Hr].
Defined.

Lemma flags_split (dismiss : option Callback)
    (before after : list SubNavItemRef) (best : SubNavItemRef) :
  NoDup (map addr (before ++ best :: after)) ->
  map (fun r => childProps r (Nat.eqb (addr r) (addr best)) dismiss)
    (before ++ best :: after)
  = map (fun r => childProps r false dismiss) before
    ++ childProps best true dismiss
    :: map (fun r => childProps r false dismiss) after.
Proof.
  intros Hnd. rewrite map_app in Hnd. simpl in Hnd.
  pose proof (NoDup_remove_2 _ _ _ Hnd) as Hnot.
  rewrite map_app. simpl. rewrite Nat.eqb_refl.
  f_equal; [|f_equal]; apply map_ext_in; intros r Hr;
    (destruct (Nat.eqb_spec (addr r) (addr best)) as [E|_];
     [|reflexivity]);
    elim Hnot; apply in_or_app; rewrite <- E;
    [left | right]; now apply in_map.
Qed.

(** X8. Exactly one sub-item is flagged: when the sub-items are distinct
    objects, the item has a [url] and some sub-item matches the location,
    the secondary navigation [render] returns gives [matches = true] to
    the sub-item [longestMatch] picked and [matches = false] to every
    other one. *)
Theorem one_sub_item_flagged (props : ItemProps) (state : State)
    (context : Context) (u : string) (item : SubNavItemRef) :
  NoDup (map addr (subRefsOf props)) ->
  url (p_details props) = Some u ->
  In item (subRefsOf props) ->
  ActiveAt (location context) (obj item) ->
  exists before best after,
    subRefsOf props = before ++ best :: after
    /\ longestMatch (map obj (subRefsOf props)) (location context)
       = Some (obj best)
    /\ render props state context
       = LinkMarkup u (truthy (p_disabled props)) false true
           (p_onClick props)
           (Some (map (fun r => childProps r false (onNavDismiss context))
                    before
                  ++ childProps best true (onNavDismiss context)
                  :: map (fun r => childProps r false (onNavDismiss context))
                       after)).
Proof.
  intros Hnd Hu Hin Hact.
  destruct (render_with_active_child props state context u item Hu Hin Hact)
    as (best & Hbin & _ & Hl & Hr).
  destruct (in_split _ _ Hbin) as (before & after & E).
  exists before, best, after. rewrite Hr.
  split; [exact E|]. split; [exact Hl|].
  rewrite E in Hnd |- *. now rewrite (flags_split _ _ _ _ Hnd).
Qed.

Lemma one_sub_item_flagged_witness :
  render sampleProps initialState sampleContext
  = LinkMarkup "/x" false false true (Some 7)
      (Some [ childProps {| addr := 1; obj := subItem "/x/y" |} false
                (Some 9);
              childProps {| addr := 2; obj := subItem "/x/y/z" |} true
                (Some 9) ]).
Proof.
  destruct (one_sub_item_flagged sampleProps initialState sampleContext
              "/x" {| addr := 1; obj := subItem "/x/y" |})
    as (before & best & after & _ & _ & _).
  - simpl. repeat constructor; simpl; intuition discriminate.
  - reflexivity.
  - simpl. auto.
  - unfold ActiveAt, Active. simpl. auto.
  - reflexivity.
Defined.

(** X9. A child is drawn selected exactly when it was flagged: for the
    props [render] gives a sub-item, the child's own [render] returns a
    link to the sub-item's [url] that has the class [selected] if and
    only if [matches] was set, without secondary navigation, whatever the
    [matches], [exactMatch], [matchPaths] and [excludePaths] of the
    sub-item and the location are. *)
Theorem child_selected_iff_flagged (item : SubNavItemRef) (flag : bool)
    (dismiss : option Callback) (state : State) (context : Context) :
  render (childProps item flag dismiss) state context
  = LinkMarkup (sub_url (obj item)) (truthy (sub_disabled (obj item)))
      flag (flag || expanded state) dismiss None.
Proof.
  unfold render, matchStateForItem; simpl.
  destruct flag; simpl; [now rewrite ?orb_false_r|].
  destruct (expanded state); reflexivity.
Qed.

(** X10. The class [selected] and the secondary navigation exclude each
    other: the link [render] returns never has both, and an item without
    [url] is a button. *)
Theorem selected_class_or_secondary_nav (props : ItemProps) (state : State)
    (context : Context) :
  match render props state context with
  | LinkMarkup href _ selectedClass _ _ secondaryNav =>
      url (p_details props) = Some href
      /\ (selectedClass = false \/ secondaryNav = None)
  | ButtonMarkup _ _ => url (p_details props) = None
  end.
Proof.
  unfold render. destruct (url (p_details props)); [|reflexivity].
  split; [reflexivity|].
  destruct (List.length _) as [|n]; simpl; [now right|].
  left. apply andb_false_r.
Qed.

(** X11. [render] and [isNavItemActive] agree on an item with a [url]
    and no [selected] override: the link has the class [subNavActive]
    exactly when the item is expanded or [isNavItemActive] answers
    [true]. *)
Theorem render_agrees_with_isNavItemActive (props : ItemProps)
    (state : State) (context : Context) (u : string) :
  url (p_details props) = Some u ->
  p_selected props = None ->
  exists selectedClass secondaryNav,
    render props state context
    = LinkMarkup u (truthy (p_disabled props)) selectedClass
        (expanded state
         || match isNavItemActive (propsOf props) (location context) with
            | Some true => true
            | _ => false
            end)
        (p_onClick props) secondaryNav.
Proof.
  intros Hu Hs. unfold render, isNavItemActive, propsOf; simpl.
  rewrite Hu, Hs. do 2 eexists. f_equal.
  destruct (isMatching _); simpl; [now rewrite orb_true_r|].
  destruct (p_subNavItems props) as [l|]; simpl.
  - rewrite <- filter_map_obj, length_map.
    match goal with
    | |- context [Nat.ltb 0 ?n] => now destruct (Nat.ltb 0 n)
    end.
  - reflexivity.
Qed.

Lemma render_agrees_with_isNavItemActive_witness :
  exists selectedClass secondaryNav,
    render (childProps {| addr := 1; obj := subItem "/x/y" |} false None)
      initialState sampleContext
    = LinkMarkup "/x/y" false selectedClass false None secondaryNav.
Proof.
  destruct (render_agrees_with_isNavItemActive
              (childProps {| addr := 1; obj := subItem "/x/y" |} false None)
              initialState sampleContext "/x/y" eq_refl eq_refl)
    as (selectedClass & secondaryNav & H).
  exists selectedClass, secondaryNav. exact H.
Defined.

(** X12. On an item without [url] the two disagree: when one of its
    sub-items matches the location, [isNavItemActive] answers [true],
    while [render] returns the plain button, without secondary
    navigation. *)
Theorem heading_active_but_button (props : ItemProps) (state : State)
    (context : Context) (item : SubNavItemRef) :
  url (p_details props) = None ->
  In item (subRefsOf props) ->
  ActiveAt (location context) (obj item) ->
  isNavItemActive (propsOf props) (location context) = Some true
  /\ render props state context
     = ButtonMarkup (truthy (p_disabled props)) (p_onClick props).
Proof.
  intros Hu Hin Hact. split.
  - unfold isNavItemActive, propsOf; simpl.
    destruct (isMatching _); [reflexivity|].
    unfold subRefsOf in Hin.
    destruct (p_subNavItems props) as [l|]; [|contradiction]. simpl.
    f_equal. apply filter_nonempty. exists (obj item).
    split; [now apply in_map | now apply subItemMatches_ActiveAt].
  - unfold render. now rewrite Hu.
Qed.

Lemma heading_active_but_button_witness :
  isNavItemActive (propsOf sampleHeading) "/x/y/z/" = Some true
  /\ render sampleHeading initialState sampleContext
     = ButtonMarkup false None.
Proof.
  apply (heading_active_but_button sampleHeading initialState sampleContext
           {| addr := 1; obj := subItem "/x/y" |}).
  - reflexivity.
  - simpl. auto.
  - unfold ActiveAt, Active. simpl. auto.
Defined.

(** * The click handler and [handleResize] *)

Section Clicks.

Variables (onClick : option Callback) (props : ItemProps)
  (context : Context).

Lemma calls_app (f : Callback) (a b : list Effect) :
  calls f (a ++ b) = calls f a + calls f b.
Proof. unfold calls. now rewrite filter_app, length_app. Qed.

Lemma calls_href (f : Callback) (href : option string) :
  calls f
    match href with
    | Some h => if String.eqb h (location context) then [PreventDefault]
                else []
    | None => []
    end = 0.
Proof.
  destruct href as [h|]; [|reflexivity].
  now destruct (String.eqb h (location context)).
Qed.

Lemma click_state (collapsed : bool) (href : option string) (state : State) :
  snd (clickHandler onClick props context collapsed href state)
  = if hasSubNavItems props && collapsed
    then {| expanded := negb (expanded state) |}
    else state.
Proof.
  unfold clickHandler. fold (hasSubNavItems props).
  destruct (hasSubNavItems props && collapsed); [reflexivity|].
  now destruct (onNavDismiss context).
Qed.

End Clicks.

(** X13. A click on an item with sub-items while the navigation bar is
    collapsed only opens or closes the item: [expanded] is negated, the
    default action of the event is prevented, and neither [onClick] nor
    [onNavDismiss] nor any other handler is called. *)
Theorem click_toggles_when_collapsed (onClick : option Callback)
    (props : ItemProps) (context : Context) (href : option string)
    (state : State) (f : Callback) :
  hasSubNavItems props = true ->
  let result := clickHandler onClick props context true href state in
  expanded (snd result) = negb (expanded state)
  /\ prevented (fst result) = true
  /\ calls f (fst result) = 0.
Proof.
  intros Hs. unfold clickHandler. fold (hasSubNavItems props).
  rewrite Hs. simpl. repeat split.
  - unfold prevented. rewrite existsb_app. simpl.
    now rewrite orb_true_r.
  - rewrite calls_app, calls_href. now destruct onClick.
Qed.

Lemma click_toggles_when_collapsed_witness :
  let result :=
    clickHandler (Some 7) sampleProps sampleContext true (Some "/x")
      initialState in
  expanded (snd result) = true
  /\ prevented (fst result) = true
  /\ calls 7 (fst result) = 0.
Proof.
  apply (click_toggles_when_collapsed (Some 7) sampleProps sampleContext
           (Some "/x") initialState 7).
  reflexivity.
Defined.

(** X14. A click changes [expanded] in no other case, and two clicks
    under the same state of the media query leave the state as it was. *)
Theorem click_twice (onClick : option Callback) (props : ItemProps)
    (context : Context) (collapsed : bool) (href href' : option string)
    (state : State) :
  (hasSubNavItems props && collapsed = false ->
   snd (clickHandler onClick props context collapsed href state) = state)
  /\ snd (clickHandler onClick props context collapsed href'
            (snd (clickHandler onClick props context collapsed href state)))
     = state.
Proof.
  rewrite !click_state.
  destruct (hasSubNavItems props && collapsed); simpl.
  - split; [discriminate|]. destruct state as [e]; simpl.
    now rewrite negb_involutive.
  - auto.
Qed.

(** X15. No handler is called twice by one click: [onNavDismiss] and
    [onClick] run at most once each, also when they are the same
    function. *)
Theorem click_calls_at_most_once (onClick : option Callback)
    (props : ItemProps) (context : Context) (collapsed : bool)
    (href : option string) (state : State) (f : Callback) :
  calls f (fst (clickHandler onClick props context collapsed href state))
  <= 1.
Proof.
  unfold clickHandler. fold (hasSubNavItems props).
  destruct (hasSubNavItems props && collapsed) eqn:Hc; simpl.
  - rewrite calls_app, calls_href.
    apply andb_true_iff in Hc as [_ ->]. unfold calls.
    destruct onClick; simpl; lia.
  - destruct (onNavDismiss context) as [d|]; simpl.
    + rewrite calls_app, calls_href. unfold calls. simpl.
      destruct onClick as [g|]; simpl.
      * destruct (Nat.eqb_spec g d) as [->|Hgd]; simpl.
        -- destruct (Nat.eqb d f); simpl; lia.
        -- destruct (Nat.eqb_spec d f) as [->|]; simpl;
             destruct (Nat.eqb_spec g f) as [->|]; simpl;
             try lia; congruence.
      * destruct (Nat.eqb d f); simpl; lia.
    + rewrite calls_app, calls_href. unfold calls.
      destruct onClick as [g|]; simpl; [|lia].
      destruct collapsed; simpl; [lia|].
      destruct (Nat.eqb g f); simpl; lia.
Qed.

(** X16. When [onClick] runs: the handler given to [getClickHandler] is
    called by a click if and only if the click does not toggle the item
    (no sub-items, or the navigation bar is not collapsed) and either an
    [onNavDismiss] is in the context or the navigation bar is not
    collapsed. *)
Theorem onClick_called_iff (f : Callback) (props : ItemProps)
    (context : Context) (collapsed : bool) (href : option string)
    (state : State) :
  calls f (fst (clickHandler (Some f) props context collapsed href state))
  = if negb (hasSubNavItems props && collapsed)
       && (match onNavDismiss context with Some _ => true | None => false end
           || negb collapsed)
    then 1 else 0.
Proof.
  unfold clickHandler. fold (hasSubNavItems props).
  destruct (hasSubNavItems props && collapsed) eqn:Hc; simpl.
  - rewrite calls_app, calls_href.
    apply andb_true_iff in Hc as [_ ->]. reflexivity.
  - destruct (onNavDismiss context) as [d|]; simpl;
      rewrite calls_app, calls_href; unfold calls; simpl.
    + destruct (Nat.eqb_spec f d) as [->|Hfd]; simpl.
      * now rewrite Nat.eqb_refl.
      * destruct (Nat.eqb_spec d f); [congruence|].
        simpl. now rewrite Nat.eqb_refl.
    + destruct collapsed; simpl; [reflexivity|].
      now rewrite Nat.eqb_refl.
Qed.

(** X17. A click on a child of the secondary navigation dismisses the
    navigation once: the child is given [onNavDismiss] as its [onClick],
    and its handler calls that function exactly once, calls nothing else,
    and leaves the child's state alone; only a link to the current
    location has its default action prevented. *)
Theorem child_click_dismisses_once (item : SubNavItemRef) (flag : bool)
    (context : Context) (dismiss : Callback) (collapsed : bool)
    (href : option string) (state : State) :
  onNavDismiss context = Some dismiss ->
  clickHandler (p_onClick (childProps item flag (onNavDismiss context)))
    (childProps item flag (onNavDismiss context)) context collapsed href
    state
  = ((match href with
      | Some h => if String.eqb h (location context) then [PreventDefault]
                  else []
      | None => []
      end) ++ [Call dismiss],
     state).
Proof.
  intros Hd. unfold clickHandler. simpl. rewrite Hd. simpl.
  now rewrite Nat.eqb_refl.
Qed.

Lemma child_click_dismisses_once_witness :
  clickHandler (Some 9)
    (childProps {| addr := 2; obj := subItem "/x/y/z" |} true (Some 9))
    sampleContext true (Some "/x/y/z") initialState
  = ([Call 9], initialState).
Proof.
  apply (child_click_dismisses_once
           {| addr := 2; obj := subItem "/x/y/z" |} true sampleContext 9
           true (Some "/x/y/z") initialState).
  reflexivity.
Defined.

(** X18. The default action of a click is prevented exactly when the
    clicked element links to the current location, compared as written,
    or the click toggles the item. *)
Theorem click_prevents_default_iff (onClick : option Callback)
    (props : ItemProps) (context : Context) (collapsed : bool)
    (href : option string) (state : State) :
  prevented (fst (clickHandler onClick props context collapsed href state))
  = (match href with
     | Some h => String.eqb h (location context)
     | None => false
     end
     || (hasSubNavItems props && collapsed)).
Proof.
  unfold clickHandler. fold (hasSubNavItems props).
  assert (He : forall rest,
            prevented
              ((match href with
                | Some h => if String.eqb h (location context)
                            then [PreventDefault] else []
                | None => []
                end) ++ rest)
            = (match href with
               | Some h => String.eqb h (location context)
               | None => false
               end || prevented rest)).
  { intros rest. unfold prevented. rewrite existsb_app. f_equal.
    destruct href as [h|]; [|reflexivity].
    now destruct (String.eqb h (location context)). }
  destruct (hasSubNavItems props && collapsed) eqn:Hc; simpl.
  - now rewrite He.
  - destruct (onNavDismiss context) as [d|]; simpl; rewrite He; f_equal.
    + now destruct onClick as [g|]; simpl; [destruct (Nat.eqb g d)|].
    + destruct onClick as [g|]; simpl; [|reflexivity].
      now destruct collapsed.
Qed.

(** ** The state over a sequence of events *)

Section Events.

Variables (props : ItemProps) (context : Context).

Lemma step_Click (collapsed : bool) (href : option string) (state : State) :
  step props context state (Click collapsed href)
  = if hasSubNavItems props && collapsed
    then {| expanded := negb (expanded state) |}
    else state.
Proof. apply click_state. Qed.

Lemma fold_quiet (events : list Event) (state : State) :
  (forall e, In e events -> eventCollapsed e = false) ->
  expanded state = false ->
  expanded (fold_left (step props context) events state) = false.
Proof.
  revert state. induction events as [|e events IH]; intros state Hq Hs;
    [exact Hs|].
  simpl. apply IH; [intros e' He'; apply Hq; now right|].
  pose proof (Hq e (or_introl eq_refl)) as Hc.
  destruct e as [c | c href]; simpl in Hc; subst c.
  - reflexivity.
  - now rewrite step_Click, andb_false_r.
Qed.

Lemma fold_expanded (events : list Event) (state : State) :
  expanded (fold_left (step props context) events state) = true ->
  expanded state = true
  \/ (hasSubNavItems props = true
      /\ exists href, In (Click true href) events).
Proof.
  revert state. induction events as [|e events IH]; intros state H;
    [now left|].
  simpl in H. destruct (IH _ H) as [Hs | (Hh & href & Hin)].
  - destruct e as [c | c href].
    + destruct c; simpl in Hs; [now left | discriminate].
    + rewrite step_Click in Hs.
      destruct (hasSubNavItems props) eqn:Hh, c; simpl in Hs; auto.
      right. split; [reflexivity|]. exists href. now left.
  - right. split; [exact Hh|]. exists href. now right.
Qed.

End Events.

(** X19. An item opens only by a click on it while the navigation bar is
    collapsed: if [expanded] is [true] after a sequence of resize and
    click events on a freshly mounted item, the item has sub-items and one
    of the events is a click under a collapsed navigation bar. *)
Theorem expanded_only_by_collapsed_click (props : ItemProps)
    (context : Context) (events : list Event) :
  expanded (run props context events) = true ->
  hasSubNavItems props = true
  /\ exists href, In (Click true href) events.
Proof.
  intros H. destruct (fold_expanded props context events initialState H)
    as [Hi | Hr]; [discriminate | exact Hr].
Qed.

Lemma expanded_only_by_collapsed_click_witness :
  expanded (run sampleProps sampleContext
              [Resize true; Click true (Some "/x")]) = true
  /\ hasSubNavItems sampleProps = true
  /\ exists href,
       In (Click true href) [Resize true; Click true (Some "/x")].
Proof.
  split; [reflexivity|].
  apply (expanded_only_by_collapsed_click sampleProps sampleContext
           [Resize true; Click true (Some "/x")]).
  reflexivity.
Defined.

(** X20. Leaving the collapsed layout closes the item for good: after a
    resize event that finds the navigation bar not collapsed, [expanded]
    is [false] and stays [false] through every later event that finds it
    not collapsed, whatever happened before. *)
Theorem resize_closes (props : ItemProps) (context : Context)
    (before after : list Event) :
  (forall e, In e after -> eventCollapsed e = false) ->
  expanded (run props context (before ++ Resize false :: after)) = false.
Proof.
  intros Hq. unfold run. rewrite fold_left_app. simpl.
  now apply fold_quiet.
Qed.

Lemma resize_closes_witness :
  expanded (run sampleProps sampleContext
              ([Click true None]
               ++ Resize false :: [Click false (Some "/x"); Resize false]))
  = false.
Proof.
  apply (resize_closes sampleProps sampleContext [Click true None]
           [Click false (Some "/x"); Resize false]).
  intros e [<- | [<- | []]]; reflexivity.
Defined.

(** ** [render_longestMatch] against [render] *)

(** Where [render] returns the button or a link without secondary
    navigation, no sub-item is flagged; where it returns the secondary
    navigation, the sub-item flagged is the one [longestMatch] picks. *)
Lemma render_longestMatch_render (props : ItemProps) (state : State)
    (context : Context) :
  render_longestMatch (propsOf props) (expanded state) (location context)
  = match render props state context with
    | LinkMarkup _ _ _ _ _ (Some _) =>
        longestMatch (map obj (subRefsOf props)) (location context)
    | _ => None
    end.
Proof.
  unfold render_longestMatch, render, propsOf, longestMatch, subRefsOf.
  simpl. destruct (url (p_details props)); [|reflexivity].
  destruct (p_subNavItems props) as [l|]; simpl; [|reflexivity].
  rewrite <- filter_map_obj, !length_map.
  now destruct (_ && _).
Qed.

Example render_longestMatch_heading :
  render sampleHeading initialState sampleContext = ButtonMarkup false None
  /\ render_longestMatch (propsOf sampleHeading) false "/x/y/z/" = None
  /\ longestMatch (subItemsOf (propsOf sampleHeading)) "/x/y/z/"
     = Some (subItem "/x/y").
Proof. repeat split. Qed.
